(** * ai-quiz-backend: adaptive difficulty, question parser, provider
      fallback and submission scoring

    A shallow embedding of the parts of the backend that carry logic:

    - [src/utils/adaptiveDifficulty.js]: the difficulty estimator;
    - the question service (parser of provider text, provider fallback
      chain, suggestion extraction);
    - the quiz routes that build [Quiz] and [Submission] documents.

    Modelling conventions.

    - A JavaScript number is an IEEE-754 binary64 value, [PrimFloat.float]:
      products, quotients and comparisons are computed as the engine
      computes them (35% of 90 questions rounds to 31, not 32).
      Integer-valued quantities of moderate size (counts, lengths, the
      percentage constants of the band table, the results of [Math.round],
      [Math.ceil], [Math.floor]) are kept in [Z]: on integers below 2^53
      double arithmetic is exact.
    - A JavaScript string is the list of its UTF-16 code units ([N]).
    - [null]/[undefined] is [None]; a thrown exception is [Throw]. *)

From Stdlib Require Import String Ascii.
From Stdlib Require Import ZArith NArith List Bool Lia.
From Stdlib Require Import PrimFloat FloatOps SpecFloat Uint63.
Import ListNotations.

Set Warnings "-inexact-float".
Open Scope Z_scope.

(* ================================================================== *)
(** * Results of fallible code                                          *)
(* ================================================================== *)

(** Errors the modelled code throws, one constructor per [throw] site (or
    per kind of runtime error), with the message of the source. *)
Inductive Error : Type :=
| NoQuestionText            (* "No question text found" *)
| EmptyQuestionText         (* "Empty question text" *)
| TooFewOptions (found : nat) (* "Only found n options, need 4" *)
| AllAIServicesFailed       (* "All AI services failed. Please check your
                               API keys or try again later." *)
| AllAIModelsFailed         (* "All AI models failed to generate suggestions" *)
| PersistenceError          (* a rejected database query *)
| TypeError.                (* call of undefined, property read on undefined *)

Inductive result (A : Type) : Type :=
| Ok (a : A)
| Throw (e : Error).
Arguments Ok {A} a.
Arguments Throw {A} e.

Definition bind {A B} (r : result A) (k : A -> result B) : result B :=
  match r with
  | Ok a => k a
  | Throw e => Throw e
  end.

(** [try { body } catch (error) { handler }] *)
Definition try_catch {A} (body : result A) (handler : Error -> result A)
  : result A :=
  match body with
  | Ok a => Ok a
  | Throw e => handler e
  end.

Notation "x <- r ;; k" := (bind r (fun x => k))
  (at level 61, r at next level, right associativity).

(* ================================================================== *)
(** * JavaScript numbers                                                *)
(* ================================================================== *)

(** The double nearest to an integer (exact below 2^53). *)
Definition of_Z (z : Z) : float :=
  match z with
  | Z0 => 0%float
  | Zpos _ => of_uint63 (Uint63.of_Z z)
  | Zneg p => (- of_uint63 (Uint63.of_Z (Zpos p)))%float
  end.

Definition of_nat (n : nat) : float := of_Z (Z.of_nat n).

(** A finite double is [m * 2^e] for integers [m] and [e]; the three
    roundings of [Math] are computed exactly on that representation.  They
    are used on finite values only (for NaN and the infinities, where
    JavaScript answers NaN or the infinity, the model answers 0). *)
Definition mantissa_exponent (f : float) : option (Z * Z) :=
  match Prim2SF f with
  | S754_zero _ => Some (0, 0)
  | S754_finite s m e => Some (if s then Z.neg m else Z.pos m, e)
  | _ => None
  end.

(** [Math.floor] *)
Definition Math_floor (f : float) : Z :=
  match mantissa_exponent f with
  | Some (m, e) => if 0 <=? e then m * 2 ^ e else m / 2 ^ (- e)
  | None => 0
  end.

(** [Math.ceil] *)
Definition Math_ceil (f : float) : Z :=
  match mantissa_exponent f with
  | Some (m, e) => if 0 <=? e then m * 2 ^ e else - ((- m) / 2 ^ (- e))
  | None => 0
  end.

(** [Math.round]: nearest integer, a tie going up. *)
Definition Math_round (f : float) : Z :=
  match mantissa_exponent f with
  | Some (m, e) =>
      if 0 <=? e then m * 2 ^ e
      else (2 * m + 2 ^ (- e)) / (2 * 2 ^ (- e))
  | None => 0
  end.

(** [list.reduce((sum, x) => sum + x, 0)] *)
Definition sum (l : list float) : float :=
  fold_left PrimFloat.add l 0%float.

(* ================================================================== *)
(** * JavaScript strings                                                *)
(* ================================================================== *)

Definition char := N.
Definition jsstring := list char.

(** The code units of an ASCII literal. *)
Fixpoint js (s : string) : jsstring :=
  match s with
  | EmptyString => []
  | String a s' => N_of_ascii a :: js s'
  end.

Definition char_eqb (a b : char) : bool := N.eqb a b.

Fixpoint jsstring_eqb (a b : jsstring) : bool :=
  match a, b with
  | [], [] => true
  | x :: a', y :: b' => char_eqb x y && jsstring_eqb a' b'
  | _, _ => false
  end.

(** The line feed, and the lines of a text joined by it. *)
Definition LF : char := 10%N.

Fixpoint unlines (ls : list jsstring) : jsstring :=
  match ls with
  | [] => []
  | [l] => l
  | l :: rest => l ++ LF :: unlines rest
  end.

(* ================================================================== *)
(** * Data model ([models/Submission.js], [models/Quiz.js])             *)
(* ================================================================== *)

Module Response.
(** [ResponseSchema].  [isCorrect] is [None] when the evaluating
    expression yielded [undefined]. *)
Record t : Type := mk {
  questionId : jsstring;
  userResponse : jsstring;
  correctAnswer : jsstring;
  isCorrect : option bool
}.

(** Truthiness of the [isCorrect] field, as [filter(r => r.isCorrect)]
    tests it. *)
Definition truthy (r : t) : bool :=
  match isCorrect r with
  | Some true => true
  | _ => false
  end.
End Response.

Module Submission.
(** [SubmissionSchema] (without the time stamp); an absent field is
    [None]. *)
Record t : Type := mk {
  quizId : jsstring;
  username : option jsstring;
  userId : option jsstring;
  responses : list Response.t;
  score : Z;
  suggestions : list jsstring
}.
End Submission.

Inductive Difficulty : Type := EASY | MEDIUM | HARD.

Module QuizQuestion.
(** [QuestionSchema] *)
Record t : Type := mk {
  questionId : jsstring;
  q : jsstring;
  options : list jsstring;
  correctAnswer : jsstring;
  difficulty : Difficulty
}.
End QuizQuestion.

Module Quiz.
(** [QuizSchema], the fields the modelled routes read or write. *)
Record t : Type := mk {
  quizId : jsstring;
  subject : jsstring;
  totalQuestions : Z;
  maxScore : Z;
  difficulty : Difficulty;
  questions : list QuizQuestion.t;
  createdBy : jsstring
}.
End Quiz.

(* ================================================================== *)
(** * The difficulty estimator ([utils/adaptiveDifficulty.js])          *)
(* ================================================================== *)

Inductive Trend : Type := Stable | Improving | Declining.

(** The [reasoning] text is informational; the model keeps the data the
    template string interpolates. *)
Inductive Reasoning : Type :=
| NewUser         (* "New user - using balanced distribution" *)
| BasedOn (performanceScore : float) (trend : Trend).
                  (* "Based on x% recent performance (t trend)" *)

Record Distribution : Type := mkDistribution {
  easy : Z;
  medium : Z;
  hard : Z;
  reasoning : Reasoning
}.

Record Metrics : Type := mkMetrics {
  overallPercentage : float;
  averageRecentPerformage : float;
  trend : Trend;
  totalAttempts : Z;
  totalQuestions : Z;
  totalCorrect : Z
}.

(** [getBalancedDistribution] *)
Definition getBalancedDistribution (totalQuestions : Z) : Distribution :=
  let easy := Math_ceil (of_Z totalQuestions * 0.4)%float in
  let hard := Math_floor (of_Z totalQuestions * 0.2)%float in
  let medium := totalQuestions - easy - hard in
  {| easy := easy; medium := medium; hard := hard; reasoning := NewUser |}.

(** The percentage pushed for one submission in the [forEach] of
    [calculatePerformanceMetrics]. *)
Definition percentage (submission : Submission.t) : float :=
  let questionsInSubmission :=
    Z.of_nat (length (Submission.responses submission)) in
  let correctInSubmission := Submission.score submission in
  if 0 <? questionsInSubmission
  then (of_Z correctInSubmission / of_Z questionsInSubmission * 100)%float
  else 0%float.

(** The trend block of [calculatePerformanceMetrics]. *)
Definition trendOf (recentPerformance : list float) : Trend :=
  let n := length recentPerformance in
  if (3 <=? n)%nat then
    let firstHalf := firstn (n / 2) recentPerformance in
    let secondHalf := skipn (n / 2) recentPerformance in
    let firstAvg := (sum firstHalf / of_nat (length firstHalf))%float in
    let secondAvg := (sum secondHalf / of_nat (length secondHalf))%float in
    if (firstAvg + 10 <? secondAvg)%float then Improving
    else if (secondAvg <? firstAvg - 10)%float then Declining
    else Stable
  else Stable.

(** The mean of the recent percentages (50 for an empty list). *)
Definition averageOf (recentPerformance : list float) : float :=
  if (0 <? length recentPerformance)%nat
  then (sum recentPerformance / of_nat (length recentPerformance))%float
  else 50%float.

(** [calculatePerformanceMetrics] *)
Definition calculatePerformanceMetrics (submissions : list Submission.t)
  : Metrics :=
  let totalQuestions :=
    fold_left (fun acc s => acc + Z.of_nat (length (Submission.responses s)))
              submissions 0 in
  let totalCorrect :=
    fold_left (fun acc s => acc + Submission.score s) submissions 0 in
  let recentPerformance := map percentage submissions in
  let overallPercentage :=
    if 0 <? totalQuestions
    then (of_Z totalCorrect / of_Z totalQuestions * 100)%float
    else 50%float in
  {| overallPercentage := overallPercentage;
     averageRecentPerformage := averageOf recentPerformance;
     trend := trendOf recentPerformance;
     totalAttempts := Z.of_nat (length submissions);
     totalQuestions := totalQuestions;
     totalCorrect := totalCorrect |}.

(** A triple (easy%, medium%, hard%). *)
Definition Percentages : Type := (Z * Z * Z)%type.

(** The band table of [generateAdaptiveDistribution] (the [if] chain on
    [performanceScore]). *)
Definition bandPercentages (performanceScore : float) (trend : Trend)
  : Percentages :=
  let declining := match trend with Declining => true | _ => false end in
  let improving := match trend with Improving => true | _ => false end in
  if (80 <=? performanceScore)%float then
    (if declining then 30 else 20, 40, if declining then 30 else 40)
  else if (60 <=? performanceScore)%float then (30, 50, 20)
  else if (40 <=? performanceScore)%float then (50, 35, 15)
  else
    (if improving then 50 else 60,
     if improving then 35 else 30,
     if improving then 15 else 10).

(** "Adjust based on trend" *)
Definition trendAdjust (trend : Trend) (p : Percentages) : Percentages :=
  let '(easyPercentage, mediumPercentage, hardPercentage) := p in
  match trend with
  | Improving => (easyPercentage - 5, mediumPercentage, hardPercentage + 5)
  | Declining => (easyPercentage + 5, mediumPercentage, hardPercentage - 5)
  | Stable => p
  end.

(** The three [Math.max(lo, Math.min(hi, x))] lines. *)
Definition clampPercentages (p : Percentages) : Percentages :=
  let '(easyPercentage, mediumPercentage, hardPercentage) := p in
  (Z.max 10 (Z.min 70 easyPercentage),
   Z.max 20 (Z.min 60 mediumPercentage),
   Z.max 5 (Z.min 50 hardPercentage)).

(** "Normalize to 100%" *)
Definition normalize (p : Percentages) : Percentages :=
  let '(easyPercentage, mediumPercentage, hardPercentage) := p in
  let total := easyPercentage + mediumPercentage + hardPercentage in
  let easyPercentage' :=
    Math_round (of_Z easyPercentage / of_Z total * 100)%float in
  let mediumPercentage' :=
    Math_round (of_Z mediumPercentage / of_Z total * 100)%float in
  (easyPercentage', mediumPercentage',
   100 - easyPercentage' - mediumPercentage').

(** The percentages before the clamp, after it, and after normalisation. *)
Definition adjustedPercentages (metrics : Metrics) : Percentages :=
  trendAdjust (trend metrics)
    (bandPercentages (averageRecentPerformage metrics) (trend metrics)).

Definition clampedPercentages (metrics : Metrics) : Percentages :=
  clampPercentages (adjustedPercentages metrics).

Definition finalPercentages (metrics : Metrics) : Percentages :=
  normalize (clampedPercentages metrics).

(** "Convert percentages to actual question counts": the three counts
    before the final [Math.max]. *)
Definition questionCounts (p : Percentages) (totalQuestions : Z) : Z * Z * Z :=
  let '(easyPercentage, _, hardPercentage) := p in
  let easyCount :=
    Math_round (of_Z easyPercentage / 100 * of_Z totalQuestions)%float in
  let hardCount :=
    Math_round (of_Z hardPercentage / 100 * of_Z totalQuestions)%float in
  let mediumCount := totalQuestions - easyCount - hardCount in
  (easyCount, mediumCount, hardCount).

(** [generateAdaptiveDistribution] *)
Definition generateAdaptiveDistribution (metrics : Metrics)
    (totalQuestions : Z) : Distribution :=
  let performanceScore := averageRecentPerformage metrics in
  let '(easyCount, mediumCount, hardCount) :=
    questionCounts (finalPercentages metrics) totalQuestions in
  {| easy := Z.max 1 easyCount;
     medium := Z.max 1 mediumCount;
     hard := Z.max 0 hardCount;
     reasoning := BasedOn performanceScore (trend metrics) |}.

(** [calculateAdaptiveDifficulty].  [pastSubmissions] is the outcome of the
    awaited query [Submission.find(..).sort(..).limit(10).select(..)]: a
    rejection, a null, or the documents found. *)
Definition calculateAdaptiveDifficulty
    (pastSubmissions : result (option (list Submission.t)))
    (totalQuestions : Z) : result Distribution :=
  try_catch
    (found <- pastSubmissions ;;
     match found with
     | None | Some [] => Ok (getBalancedDistribution totalQuestions)
     | Some submissions =>
         let performanceMetrics := calculatePerformanceMetrics submissions in
         let distribution :=
           generateAdaptiveDistribution performanceMetrics totalQuestions in
         Ok distribution
     end)
    (fun _ => Ok (getBalancedDistribution totalQuestions)).

(* ================================================================== *)
(** * Character classes and string primitives                           *)
(* ================================================================== *)

Open Scope N_scope.

(** [\s] of a regular expression, which is also what [trim] strips:
    white space and line terminators. *)
Definition is_space (c : char) : bool :=
  ((9 <=? c) && (c <=? 13)) || (c =? 32) || (c =? 160) || (c =? 5760)
  || ((8192 <=? c) && (c <=? 8202)) || (c =? 8232) || (c =? 8233)
  || (c =? 8239) || (c =? 8287) || (c =? 12288) || (c =? 65279).

(** [\d] *)
Definition is_digit (c : char) : bool := (48 <=? c) && (c <=? 57).

(** [[A-D]], case-sensitive. *)
Definition is_upper_AD (c : char) : bool := (65 <=? c) && (c <=? 68).

(** [[A-D]] under the [i] flag. *)
Definition is_AD_ci (c : char) : bool :=
  is_upper_AD c || ((97 <=? c) && (c <=? 100)).

(** [[^\n\r]] *)
Definition not_newline (c : char) : bool := negb ((c =? 10) || (c =? 13)).

(** [toUpperCase] on one code unit of the ASCII range (the only use is on
    a captured letter). *)
Definition toUpperCase (c : char) : char :=
  if (97 <=? c) && (c <=? 122) then c - 32 else c.

(** A pattern character against an input character under the [i] flag
    (pattern characters are ASCII). *)
Definition eq_ci (pattern c : char) : bool :=
  toUpperCase c =? toUpperCase pattern.

Close Scope N_scope.

Fixpoint drop_while (p : char -> bool) (s : jsstring) : jsstring :=
  match s with
  | [] => []
  | c :: s' => if p c then drop_while p s' else s
  end.

Fixpoint take_while (p : char -> bool) (s : jsstring) : jsstring :=
  match s with
  | [] => []
  | c :: s' => if p c then c :: take_while p s' else []
  end.

(** [s.trim()] *)
Definition trim (s : jsstring) : jsstring :=
  rev (drop_while is_space (rev (drop_while is_space s))).

Definition is_empty (s : jsstring) : bool :=
  match s with [] => true | _ => false end.

(** The rest of [s] after a literal matched under the [i] flag at its
    head. *)
Fixpoint strip_prefix_ci (pattern s : jsstring) : option jsstring :=
  match pattern, s with
  | [], _ => Some s
  | p :: pattern', c :: s' =>
      if eq_ci p c then strip_prefix_ci pattern' s' else None
  | _ :: _, [] => None
  end.

(** Decimal digits of a number, as a template string prints it. *)
Fixpoint uint_digits (d : Decimal.uint) : jsstring :=
  match d with
  | Decimal.Nil => []
  | Decimal.D0 d => 48%N :: uint_digits d
  | Decimal.D1 d => 49%N :: uint_digits d
  | Decimal.D2 d => 50%N :: uint_digits d
  | Decimal.D3 d => 51%N :: uint_digits d
  | Decimal.D4 d => 52%N :: uint_digits d
  | Decimal.D5 d => 53%N :: uint_digits d
  | Decimal.D6 d => 54%N :: uint_digits d
  | Decimal.D7 d => 55%N :: uint_digits d
  | Decimal.D8 d => 56%N :: uint_digits d
  | Decimal.D9 d => 57%N :: uint_digits d
  end.

Definition decimal (n : nat) : jsstring := uint_digits (Nat.to_uint n).

(* ================================================================== *)
(** * The question parser (question service)                            *)
(* ================================================================== *)

Module Parsed.
(** The object [parseQuestionBlock] returns. *)
Record t : Type := mk {
  questionId : jsstring;
  question : jsstring;
  options : list jsstring;
  answer : jsstring
}.
End Parsed.

(** Length of the match of [Q\d*:\s*] at the head of [s]; [ci] is the [i]
    flag.  The quantifiers are greedy and what follows each of them cannot
    match inside its run, so the match is unique. *)
Definition match_marker (ci : bool) (s : jsstring) : option nat :=
  match s with
  | c :: s1 =>
      if (c =? 81)%N || (ci && (c =? 113)%N) then
        match drop_while is_digit s1 with
        | c2 :: s2 =>
            if (c2 =? 58)%N
            then Some (1 + length (take_while is_digit s1) + 1
                       + length (take_while is_space s2))%nat
            else None
        | [] => None
        end
      else None
  | [] => None
  end.

(** [text.split(/Q\d*:\s*/i)]: [skip] counts the characters of the current
    match still to pass over, [piece] is the current piece, reversed. *)
Fixpoint split_markers (skip : nat) (piece : jsstring) (s : jsstring)
  : list jsstring :=
  match s with
  | [] => [rev piece]
  | c :: s' =>
      match skip with
      | S k => split_markers k piece s'
      | O =>
          match match_marker true s with
          | Some (S n) => rev piece :: split_markers n [] s'
          | _ => split_markers 0 (c :: piece) s'
          end
      end
  end.

Definition split_on_markers (text : jsstring) : list jsstring :=
  split_markers 0 [] text.

(** Group 1 of [/^([^A-D]*?)(?=A\))/s] on [s]: the lazy run stops at the
    first position followed by "A)", and cannot pass a capital A to D. *)
Fixpoint question_prefix (s : jsstring) : option jsstring :=
  match s with
  | [] => None
  | c :: s' =>
      if is_upper_AD c then
        match s' with
        | c2 :: _ => if (c =? 65)%N && (c2 =? 41)%N then Some [] else None
        | [] => None
        end
      else option_map (cons c) (question_prefix s')
  end.

(** [.replace(/^Q\d*:\s*/, '')] *)
Definition strip_marker (s : jsstring) : jsstring :=
  match match_marker false s with
  | Some n => skipn n s
  | None => s
  end.

(** Length of the match of [[A-D]\)\s*[^\n\r]*] under the [i] flag at the
    head of [s]. *)
Definition match_option (s : jsstring) : option nat :=
  match s with
  | c :: c2 :: s2 =>
      if is_AD_ci c && (c2 =? 41)%N
      then Some (2 + length (take_while is_space s2)
                 + length (take_while not_newline (drop_while is_space s2)))%nat
      else None
  | _ => None
  end.

(** [block.match(optionRegex)], the pattern above with the [g] flag: all
    matches, left to right ([null] is the empty list). *)
Fixpoint match_options (skip : nat) (s : jsstring) : list jsstring :=
  match s with
  | [] => []
  | _ :: s' =>
      match skip with
      | S k => match_options k s'
      | O =>
          match match_option s with
          | Some (S n) => firstn (S n) s :: match_options n s'
          | _ => match_options 0 s'
          end
      end
  end.

(** Group 1 of [keyword\s*([A-D])] under the [i] flag at the head of
    [s], and its first match anywhere in [s]. *)
Definition answer_at (keyword s : jsstring) : option char :=
  match strip_prefix_ci keyword s with
  | Some rest =>
      match drop_while is_space rest with
      | c :: _ => if is_AD_ci c then Some c else None
      | [] => None
      end
  | None => None
  end.

Fixpoint find_answer (keyword s : jsstring) : option char :=
  match answer_at keyword s with
  | Some c => Some c
  | None =>
      match s with
      | [] => None
      | _ :: s' => find_answer keyword s'
      end
  end.

(** [parseQuestionBlock] *)
Definition parseQuestionBlock (block : jsstring) (questionNum : nat)
  : result Parsed.t :=
  match question_prefix block with
  | None => Throw NoQuestionText
  | Some group1 =>
      let questionText := trim (strip_marker group1) in
      if is_empty questionText then Throw EmptyQuestionText else
      let optionMatches := match_options 0 block in
      if (length optionMatches <? 4)%nat
      then Throw (TooFewOptions (length optionMatches)) else
      let options := map trim (firstn 4 optionMatches) in
      let answerMatch :=
        match find_answer (js "Answer:") block with
        | Some c => Some c
        | None => find_answer (js "Correct:") block
        end in
      let answer :=
        match answerMatch with
        | Some c => [toUpperCase c]
        | None => js "A"
        end in
      Ok {| Parsed.questionId := js "q" ++ decimal questionNum;
            Parsed.question := questionText;
            Parsed.options := options;
            Parsed.answer := answer |}
  end.

(** The body of the [for] loop of [parseQuestionsFromText], over the blocks
    it visits; [i] is the loop index of the first of them. *)
Fixpoint parse_blocks (i : nat) (blocks : list jsstring) : list Parsed.t :=
  match blocks with
  | [] => []
  | b :: rest =>
      let block := trim b in
      if is_empty block then parse_blocks (S i) rest else
      match parseQuestionBlock block (i + 1) with
      | Ok question =>
          if negb (is_empty (Parsed.question question))
             && (length (Parsed.options question) =? 4)%nat
          then question :: parse_blocks (S i) rest
          else parse_blocks (S i) rest
      | Throw _ => parse_blocks (S i) rest
      end
  end.

(** The blocks of a text: the pieces between markers that are not blank. *)
Definition questionBlocks (text : jsstring) : list jsstring :=
  filter (fun block => negb (is_empty (trim block))) (split_on_markers text).

(** [parseQuestionsFromText] *)
Definition parseQuestionsFromText (text : jsstring) (expectedCount : Z)
  : list Parsed.t :=
  let visited :=
    Z.to_nat (Z.min (Z.of_nat (length (questionBlocks text))) expectedCount) in
  parse_blocks 0 (firstn visited (questionBlocks text)).

(* ================================================================== *)
(** * The provider fallback chain (question service)                    *)
(* ================================================================== *)

(** What one awaited provider call does: it throws (transport error,
    non-2xx status, a payload without the completion text), or it yields
    the completion text. *)
Inductive Completion : Type :=
| RequestFails
| Completes (text : jsstring).

(** The process configuration and the providers, as one call of
    [generateQuestions] meets them.  A key is [true] when the environment
    variable is set. *)
Record Providers : Type := mkProviders {
  OPENROUTER_API_KEY : bool;
  openRouter : Completion;
  GROQ_API_KEY : bool;
  groq : Completion;
  HUGGINGFACE_API_KEY : bool;
  textGeneration : string -> Completion   (* by model name *)
}.

(** [tryOpenRouterGeneration]; [None] is [null]. *)
Definition tryOpenRouterGeneration (env : Providers) (totalQuestions : Z)
  : option (list Parsed.t) :=
  if negb (OPENROUTER_API_KEY env) then None else
  match openRouter env with
  | Completes text => Some (parseQuestionsFromText text totalQuestions)
  | RequestFails => None
  end.

(** [tryGroqGeneration] *)
Definition tryGroqGeneration (env : Providers) (totalQuestions : Z)
  : option (list Parsed.t) :=
  if negb (GROQ_API_KEY env) then None else
  match groq env with
  | Completes text => Some (parseQuestionsFromText text totalQuestions)
  | RequestFails => None
  end.

Definition workingModels : list string :=
  [ "microsoft/DialoGPT-medium"%string;
    "facebook/blenderbot-400M-distill"%string;
    "microsoft/DialoGPT-small"%string ].

(** The [for] loop of [tryHuggingFaceGeneration]. *)
Fixpoint tryModels (env : Providers) (totalQuestions : Z)
    (models : list string) : option (list Parsed.t) :=
  match models with
  | [] => None
  | model :: rest =>
      match textGeneration env model with
      | Completes text =>
          match parseQuestionsFromText text totalQuestions with
          | [] => tryModels env totalQuestions rest
          | questions => Some questions
          end
      | RequestFails => tryModels env totalQuestions rest
      end
  end.

(** [tryHuggingFaceGeneration] *)
Definition tryHuggingFaceGeneration (env : Providers) (totalQuestions : Z)
  : option (list Parsed.t) :=
  if negb (HUGGINGFACE_API_KEY env) then None
  else tryModels env totalQuestions workingModels.

(** [questions && questions.length > 0] *)
Definition usable (questions : option (list Parsed.t)) : bool :=
  match questions with
  | Some (_ :: _) => true
  | _ => false
  end.

(** The array behind a usable result. *)
Definition the_questions (questions : option (list Parsed.t))
  : list Parsed.t :=
  match questions with
  | Some q => q
  | None => []
  end.

(** [generateQuestions] *)
Definition generateQuestions (env : Providers) (totalQuestions : Z)
  : result (list Parsed.t) :=
  let questions := tryOpenRouterGeneration env totalQuestions in
  if usable questions then Ok (the_questions questions) else
  let questions := tryGroqGeneration env totalQuestions in
  if usable questions then Ok (the_questions questions) else
  let questions := tryHuggingFaceGeneration env totalQuestions in
  if usable questions then Ok (the_questions questions) else
  Throw AllAIServicesFailed.

(* ------------------------------------------------------------------ *)
(** ** Suggestions                                                      *)
(* ------------------------------------------------------------------ *)

(** What one iteration of the model loop of [generateAISuggestions] meets:
    an exception ([fetch] or [json] rejects, the content is not a string),
    a response that is not ok, a body without [choices[0].message], or the
    message content. *)
Inductive FetchOutcome : Type :=
| FetchThrows
| NotOk (status : Z)
| InvalidStructure
| Content (content : jsstring).

Definition freeModels : list string :=
  [ "google/gemma-2-9b-it:free"%string;
    "microsoft/phi-3-medium-128k-instruct:free"%string;
    "microsoft/phi-3-mini-128k-instruct:free"%string;
    "meta-llama/llama-3.2-11b-vision-instruct:free"%string;
    "meta-llama/llama-3.2-3b-instruct:free"%string;
    "meta-llama/llama-3.2-1b-instruct:free"%string;
    "qwen/qwen-2-7b-instruct:free"%string;
    "huggingfaceh4/zephyr-7b-beta:free"%string ].

(** [s.split('\n')]; [piece] is the current piece, reversed. *)
Fixpoint split_lines (piece : jsstring) (s : jsstring) : list jsstring :=
  match s with
  | [] => [rev piece]
  | c :: s' =>
      if (c =? 10)%N then rev piece :: split_lines [] s'
      else split_lines (c :: piece) s'
  end.

(** [.replace(/^\d+[\.\)]\s*/, '')] *)
Definition strip_number (s : jsstring) : jsstring :=
  match take_while is_digit s, drop_while is_digit s with
  | _ :: _, c :: rest =>
      if (c =? 46)%N || (c =? 41)%N then drop_while is_space rest else s
  | _, _ => s
  end.

(** [.replace(/^[-•*]\s*/, '')] *)
Definition strip_bullet (s : jsstring) : jsstring :=
  match s with
  | c :: rest =>
      if (c =? 45)%N || (c =? 8226)%N || (c =? 42)%N
      then drop_while is_space rest else s
  | [] => s
  end.

(** The [for (const line of lines)] loop, from the suggestions collected
    so far. *)
Fixpoint collect_suggestions (suggestions lines : list jsstring)
  : list jsstring :=
  match lines with
  | [] => suggestions
  | line :: rest =>
      let cleaned := trim (strip_bullet (strip_number line)) in
      let suggestions :=
        if (50 <? length cleaned)%nat then suggestions ++ [cleaned]
        else suggestions in
      if (length suggestions =? 3)%nat then suggestions
      else collect_suggestions suggestions rest
  end.

(** The suggestions read from one message content. *)
Definition parseSuggestions (content : jsstring) : list jsstring :=
  let aiResponse := trim content in
  let lines :=
    filter (fun line => (0 <? length (trim line))%nat)
           (split_lines [] aiResponse) in
  collect_suggestions [] lines.

(** The model loop of [generateAISuggestions]. *)
Fixpoint trySuggestionModels (fetch : string -> FetchOutcome)
    (models : list string) : result (list jsstring) :=
  match models with
  | [] => Throw AllAIModelsFailed
  | model :: rest =>
      match fetch model with
      | Content content =>
          let suggestions := parseSuggestions content in
          if (length suggestions =? 3)%nat then Ok suggestions
          else trySuggestionModels fetch rest
      | _ => trySuggestionModels fetch rest
      end
  end.

(** [generateAISuggestions]; the score and the evaluation only shape the
    prompt, and [fetch] is the outcome of the request made with it. *)
Definition generateAISuggestions (fetch : string -> FetchOutcome)
  : result (list jsstring) :=
  trySuggestionModels fetch freeModels.

(* ================================================================== *)
(** * The quiz routes                                                   *)
(* ================================================================== *)

(** [req.user], as the [auth] middleware sets it. *)
Record User : Type := mkUser {
  user_userId : jsstring;
  user_username : jsstring;
  user_email : jsstring
}.

(** How a handler ends: it answers with an error status, or it stores the
    document it built (and answers with it). *)
Inductive Outcome (A : Type) : Type :=
| Responds (status : Z)
| Stores (document : A).
Arguments Responds {A} status.
Arguments Stores {A} document.

(** [a || b] on strings: the empty string is falsy. *)
Definition or_else (a b : jsstring) : jsstring :=
  if is_empty a then b else a.

(** "Transform questions to match your schema": the [map] over the
    generated questions, from index [index]. *)
Fixpoint transformQuestions (validDifficulty : Difficulty) (index : nat)
    (generatedQuestions : list Parsed.t) : list QuizQuestion.t :=
  match generatedQuestions with
  | [] => []
  | q :: rest =>
      {| QuizQuestion.questionId :=
           or_else (Parsed.questionId q) (js "q" ++ decimal (index + 1));
         QuizQuestion.q := Parsed.question q;
         QuizQuestion.options := Parsed.options q;
         QuizQuestion.correctAnswer := Parsed.answer q;
         QuizQuestion.difficulty := validDifficulty |}
      :: transformQuestions validDifficulty (S index) rest
  end.

(** [POST /create-quiz].  [difficulty] is the outcome of the upper-casing
    and membership test of step 1 ([None]: none of the three levels);
    [quizId] is the identifier step 4 draws. *)
Definition create_quiz (user : option User) (subject : jsstring)
    (difficulty : option Difficulty) (totalQuestions : Z)
    (env : Providers) (quizId : jsstring) : Outcome Quiz.t :=
  match user with
  | None => Responds 401
  | Some u =>
      if is_empty (user_userId u) then Responds 401 else
      match difficulty with
      | None => Responds 400
      | Some validDifficulty =>
          match generateQuestions env totalQuestions with
          | Throw _ => Responds 500
          | Ok [] => Responds 500
          | Ok generatedQuestions =>
              let transformedQuestions :=
                transformQuestions validDifficulty 0 generatedQuestions in
              Stores
                {| Quiz.quizId := quizId;
                   Quiz.subject := subject;
                   Quiz.totalQuestions :=
                     Z.of_nat (length transformedQuestions);
                   Quiz.maxScore := Z.of_nat (length transformedQuestions);
                   Quiz.difficulty := validDifficulty;
                   Quiz.questions := transformedQuestions;
                   Quiz.createdBy :=
                     or_else (user_username u) (js "anonymous") |}
          end
      end
  end.

(** The [map] that evaluates one response of [POST /:quizId/submit-ejs]
    against the quiz. *)
Definition evaluate (quiz : Quiz.t) (response : jsstring * jsstring)
  : Response.t :=
  let '(questionId, userResponse) := response in
  let question :=
    find (fun q => jsstring_eqb (QuizQuestion.questionId q) questionId)
         (Quiz.questions quiz) in
  {| Response.questionId := questionId;
     Response.userResponse := userResponse;
     Response.correctAnswer :=
       match question with
       | Some q => QuizQuestion.correctAnswer q
       | None => js "Unknown"
       end;
     Response.isCorrect :=
       match question with
       | Some q =>
           Some (jsstring_eqb (QuizQuestion.correctAnswer q) userResponse)
       | None => None
       end |}.

(** [evaluation.filter(r => r.isCorrect).length] *)
Definition countCorrect (evaluation : list Response.t) : Z :=
  Z.of_nat (length (filter Response.truthy evaluation)).

Definition fallbackSuggestions : list jsstring :=
  [ js "Review the questions you got wrong and understand the correct answers.";
    js "Practice more questions in areas where you struggled.";
    js "Consider studying the topic more thoroughly before attempting again." ].

(** [POST /:quizId/submit-ejs] up to [submission.save()].  [responses] are
    the entries of [req.body.responses]; [found] is the outcome of
    [Quiz.findOne({ quizId })]. *)
Definition submit_ejs (quizId : jsstring) (user : option User)
    (responses : list (jsstring * jsstring)) (found : option Quiz.t)
    (fetch : string -> FetchOutcome) : Outcome Submission.t :=
  let username :=
    match user with
    | Some u => or_else (user_username u) (js "guest")
    | None => js "guest"
    end in
  let userId :=
    match user with
    | Some u => if is_empty (user_userId u) then None else Some (user_userId u)
    | None => None
    end in
  match found with
  | None => Responds 404
  | Some quiz =>
      let evaluation := map (evaluate quiz) responses in
      let score := countCorrect evaluation in
      let aiSuggestions :=
        match generateAISuggestions fetch with
        | Ok suggestions => suggestions
        | Throw _ => fallbackSuggestions
        end in
      Stores
        {| Submission.quizId := quizId;
           Submission.username := Some username;
           Submission.userId := userId;
           Submission.responses := evaluation;
           Submission.score := score;
           Submission.suggestions := aiSuggestions |}
  end.









(* ================================================================== *)
(** * Definitions used by the statements                                *)
(* ================================================================== *)

(** The normalisation step in the words of the specification: easy and
    hard are the rounded shares of the clamped total, medium is what is
    left of 100.  (The source rounds easy and medium and leaves the rest
    to hard: [normalize].) *)
Definition normalize_medium_remainder (p : Percentages) : Percentages :=
  let '(clampedEasy, clampedMedium, clampedHard) := p in
  let clampedTotal := clampedEasy + clampedMedium + clampedHard in
  let easyPercentage :=
    Math_round (of_Z clampedEasy / of_Z clampedTotal * 100)%float in
  let hardPercentage :=
    Math_round (of_Z clampedHard / of_Z clampedTotal * 100)%float in
  (easyPercentage, 100 - easyPercentage - hardPercentage, hardPercentage).


(** [lo; lo+1; ...], [n] numbers. *)
Fixpoint Zseq (lo : Z) (n : nat) : list Z :=
  match n with
  | O => []
  | S k => lo :: Zseq (lo + 1) k
  end.


(** A submission with [n] responses and score [score] (the estimator
    reads nothing else). *)
Definition attempt (score : Z) (n : nat) : Submission.t :=
  {| Submission.quizId := [];
     Submission.username := None;
     Submission.userId := None;
     Submission.responses :=
       repeat {| Response.questionId := [];
                 Response.userResponse := [];
                 Response.correctAnswer := [];
                 Response.isCorrect := None |} n;
     Submission.score := score;
     Submission.suggestions := [] |}.

(** A history whose recent-performance sequence is 90, 92, 95, 40, 35. *)
Definition decliningHistory : list Submission.t :=
  [ attempt 90 100; attempt 92 100; attempt 95 100;
    attempt 40 100; attempt 35 100 ].

(** One block in the format the prompt asks for. *)
Definition questionBlock (n prompt a b c d answer : string) : jsstring :=
  unlines
    [ js "Q" ++ js n ++ js ": " ++ js prompt;
      js "A) " ++ js a; js "B) " ++ js b; js "C) " ++ js c; js "D) " ++ js d;
      js "Answer: " ++ js answer; []; [] ].

(** The same without the fourth option. *)
Definition threeOptionBlock (n prompt a b c answer : string) : jsstring :=
  unlines
    [ js "Q" ++ js n ++ js ": " ++ js prompt;
      js "A) " ++ js a; js "B) " ++ js b; js "C) " ++ js c;
      js "Answer: " ++ js answer; []; [] ].

Definition block1 : jsstring :=
  questionBlock "1" "What is photosynthesis?" "Plant respiration process"
    "Process of making food using sunlight" "Root absorption method"
    "Leaf growth mechanism" "B".
Definition block2 : jsstring :=
  questionBlock "2" "Which planet is closest to the sun?"
    "Venus" "Earth" "Mercury" "Mars" "C".
Definition block2_short : jsstring :=
  threeOptionBlock "2" "Which planet is closest to the sun?"
    "Venus" "Earth" "Mercury" "C".
Definition block3 : jsstring :=
  questionBlock "3" "What is 2 + 2?" "3" "4" "5" "6" "B".
Definition block4 : jsstring :=
  questionBlock "4" "What is 3 + 3?" "3" "4" "5" "6" "D".
Definition block5 : jsstring :=
  questionBlock "5" "What is 1 + 1?" "2" "4" "5" "6" "A".

(** Five well-formed blocks; and the same text with the fourth option of
    the second block missing. *)
Definition fiveBlocks : jsstring :=
  block1 ++ block2 ++ block3 ++ block4 ++ block5.
Definition fiveBlocksOneShort : jsstring :=
  block1 ++ block2_short ++ block3 ++ block4 ++ block5.

(** Whether the loop of [parseQuestionsFromText] keeps a block. *)
Definition accepted (block : jsstring) : bool :=
  match parseQuestionBlock (trim block) 0 with
  | Ok _ => true
  | Throw _ => false
  end.

(** An option string that still carries its marker: a letter A to D (in
    either case, the option pattern has the [i] flag) and a closing
    parenthesis. *)
Definition has_marker (opt : jsstring) : Prop :=
  exists letter text,
    opt = letter :: 41%N :: text /\ is_AD_ci letter = true.

(** [m] lies in [block] and runs to the end of a line of it. *)
Definition to_end_of_line (m block : jsstring) : Prop :=
  exists before after,
    block = before ++ m ++ after /\
    match after with
    | [] => True
    | c :: _ => not_newline c = false
    end.

(** [opt] is the text of [block] from a marker to the end of its line,
    without the white space around it: the marker and the full option
    text. *)
Definition option_line (block opt : jsstring) : Prop :=
  exists m, opt = trim m /\ has_marker m /\ to_end_of_line m block.

(** A single bare letter among A, B, C, D. *)
Definition bare_letter (s : jsstring) : Prop :=
  s = js "A" \/ s = js "B" \/ s = js "C" \/ s = js "D".

(** A provider of the question chain that gives nothing usable for
    [totalQuestions]: no credential, a failed request, or a text in which
    the parser finds no question. *)
Definition exhausted (key : bool) (c : Completion) (totalQuestions : Z)
  : Prop :=
  key = false \/ c = RequestFails \/
  exists text, c = Completes text /\
               parseQuestionsFromText text totalQuestions = [].

(** A suggestion model that gives nothing usable: anything but a content
    with three suggestions. *)
Definition no_suggestions (o : FetchOutcome) : Prop :=
  match o with
  | Content content => length (parseSuggestions content) <> 3%nat
  | _ => True
  end.

(** Providers where OpenRouter has no key, Groq's request fails and the
    Hugging Face models answer with text that holds no question. *)
Definition exhaustedProviders : Providers :=
  {| OPENROUTER_API_KEY := false;
     openRouter := RequestFails;
     GROQ_API_KEY := true;
     groq := RequestFails;
     HUGGINGFACE_API_KEY := true;
     textGeneration := fun _ => Completes (js "I cannot help with that.") |}.

(** Suggestion models that answer 500, except the first, whose content
    has a single line. *)
Definition exhaustedFetch (model : string) : FetchOutcome :=
  if String.eqb model "google/gemma-2-9b-it:free"
  then Content (js "Keep going!")
  else NotOk 500.

Definition sampleUser : User :=
  {| user_userId := js "64f0c0ffee";
     user_username := js "ada";
     user_email := js "ada@example.org" |}.

(** Providers whose first member answers with the five blocks. *)
Definition answeringProviders : Providers :=
  {| OPENROUTER_API_KEY := true;
     openRouter := Completes fiveBlocks;
     GROQ_API_KEY := false;
     groq := RequestFails;
     HUGGINGFACE_API_KEY := false;
     textGeneration := fun _ => RequestFails |}.

(** The quiz [POST /create-quiz] stores for three questions from these
    providers. *)
Definition sampleQuiz : Quiz.t :=
  {| Quiz.quizId := js "quiz_1";
     Quiz.subject := js "Science";
     Quiz.totalQuestions := 3;
     Quiz.maxScore := 3;
     Quiz.difficulty := EASY;
     Quiz.questions :=
       transformQuestions EASY 0 (parseQuestionsFromText fiveBlocks 3);
     Quiz.createdBy := js "ada" |}.

(** A submission that answers q1 with the bare letter, q2 with the full
    text of the right option, q3 with a wrong letter. *)
Definition sampleResponses : list (jsstring * jsstring) :=
  [ (js "q1", js "B"); (js "q2", js "C) Mercury"); (js "q3", js "A") ].

(* ================================================================== *)
(** * Properties of the difficulty estimator                            *)
(* ================================================================== *)

(** The roundings on known values: ties go up, also below zero; the
    double nearest below one half rounds to 0; 35% of 90 is a double just
    below 31.5. *)
Example Math_roundings :
  Math_round 2.5 = 3 /\ Math_round (-2.5) = -2 /\
  Math_round 0.49999999999999994 = 0 /\
  Math_ceil 0.4 = 1 /\ Math_ceil 4 = 4 /\ Math_floor (-0.5) = -1 /\
  Math_round (of_Z 35 / 100 * of_Z 90) = 31 /\
  Math_round (of_Z 35 / 100 * of_Z 10) = 4.
Proof. vm_compute. repeat split; reflexivity. Qed.

Lemma In_Zseq (n : nat) : forall lo x,
  lo <= x < lo + Z.of_nat n -> In x (Zseq lo n).
Proof.
  induction n as [|n IH]; intros lo x Hx; simpl in *.
  - lia.
  - destruct (Z.eq_dec lo x) as [->|Hne]; [now left|].
    right. apply IH. lia.
Qed.

(** A property checked by evaluation on a whole range holds on it. *)
Lemma forallb_Zseq (f : Z -> bool) (lo : Z) (n : nat) :
  forallb f (Zseq lo n) = true ->
  forall x, lo <= x < lo + Z.of_nat n -> f x = true.
Proof.
  intros Hall x Hx.
  rewrite forallb_forall in Hall. apply Hall, In_Zseq, Hx.
Qed.










(** The estimator always returns, and what it returns is the balanced
    split or the adaptive distribution of some metrics. *)
Lemma calculateAdaptiveDifficulty_cases
    (pastSubmissions : result (option (list Submission.t)))
    (totalQuestions : Z) :
  calculateAdaptiveDifficulty pastSubmissions totalQuestions
    = Ok (getBalancedDistribution totalQuestions)
  \/ exists submissions,
       pastSubmissions = Ok (Some submissions) /\ submissions <> [] /\
       calculateAdaptiveDifficulty pastSubmissions totalQuestions
       = Ok (generateAdaptiveDistribution
               (calculatePerformanceMetrics submissions) totalQuestions).
Proof.
  destruct pastSubmissions as [[[|s l]|]|e]; simpl; auto.
  right. exists (s :: l). repeat split; congruence.
Qed.





(** The two orders of the normalisation differ on clamped triples whose
    total is not 100 (none of which the band table produces). *)
Remark normalize_orders_differ :
  normalize (10, 20, 50) = (13, 25, 62) /\
  normalize_medium_remainder (10, 20, 50) = (13, 24, 63).
Proof. split; vm_compute; reflexivity. Qed.

(** C5, as stated, fails: for the sequence 90, 92, 95, 40, 35 the
    percentages before the clamp are 35, 50, 15, not 35, 45, 15 (the trend
    step moves 5 from hard to easy and leaves medium at 50). *)
Lemma declining_sequence_not_35_45_15 :
  map percentage decliningHistory = [90; 92; 95; 40; 35]%float /\
  adjustedPercentages (calculatePerformanceMetrics decliningHistory)
    = (35, 50, 15) /\
  adjustedPercentages (calculatePerformanceMetrics decliningHistory)
    <> (35, 45, 15).
Proof.
  split; [vm_compute; reflexivity|].
  split; [vm_compute; reflexivity|].
  vm_compute. discriminate.
Qed.

(** C5, amended.  For a history whose recent-performance sequence is
    90, 92, 95, 40, 35: the first half is 90, 92 with mean 91, the second
    half is 95, 40, 35 with mean 56.7 (to one decimal), lower by more than
    10, so the trend is declining; the mean of the five is 70.4, the band
    is 60-79 with base triple 30, 50, 20; after the declining adjustment
    (5 from hard to easy) the percentages before the clamp are
    35, 50, 15. *)
Theorem declining_sequence_percentages (submissions : list Submission.t) :
  map percentage submissions = [90; 92; 95; 40; 35]%float ->
  let metrics := calculatePerformanceMetrics submissions in
  let recentPerformance := map percentage submissions in
  let firstHalf := firstn (length recentPerformance / 2) recentPerformance in
  let secondHalf := skipn (length recentPerformance / 2) recentPerformance in
  let firstAvg := (sum firstHalf / of_nat (length firstHalf))%float in
  let secondAvg := (sum secondHalf / of_nat (length secondHalf))%float in
  firstHalf = [90; 92]%float /\ firstAvg = 91%float /\
  secondHalf = [95; 40; 35]%float /\ Math_round (secondAvg * 10) = 567 /\
  (secondAvg <? firstAvg - 10)%float = true /\
  trend metrics = Declining /\
  averageRecentPerformage metrics = 70.4%float /\
  (60 <=? averageRecentPerformage metrics)%float = true /\
  (80 <=? averageRecentPerformage metrics)%float = false /\
  bandPercentages (averageRecentPerformage metrics) (trend metrics)
    = (30, 50, 20) /\
  adjustedPercentages metrics = (35, 50, 15).
Proof.
  intros Hperf. unfold calculatePerformanceMetrics, adjustedPercentages.
  cbn [trend averageRecentPerformage].
  rewrite Hperf. vm_compute. repeat split; reflexivity.
Qed.

(** C5, amended, at five submissions of 100 responses with scores
    90, 92, 95, 40, 35. *)
Lemma declining_sequence_percentages_witness :
  trend (calculatePerformanceMetrics decliningHistory) = Declining /\
  adjustedPercentages (calculatePerformanceMetrics decliningHistory)
    = (35, 50, 15).
Proof.
  pose proof (declining_sequence_percentages decliningHistory) as H.
  cbv zeta in H.
  destruct H as (_ & _ & _ & _ & _ & Htrend & _ & _ & _ & _ & Hadj).
  - vm_compute. reflexivity.
  - exact (conj Htrend Hadj).
Defined.

(** C6, as stated, fails on its second half: below 40 with an improving
    trend the band step yields 50, 35, 15 and not 50, 30, 20. *)
Lemma struggling_improving_not_50_30_20 :
  (40 <=? 30)%float = false /\
  bandPercentages 30 Improving = (50, 35, 15) /\
  bandPercentages 30 Improving <> (50, 30, 20).
Proof.
  split; [vm_compute; reflexivity|].
  split; [vm_compute; reflexivity|].
  vm_compute. discriminate.
Qed.

(** C6, amended.  In the band step, a score [high] in the >= 80 band has
    base triple 20, 40, 40 and, with a declining trend, 30, 40, 30 (10
    points from hard to easy); a score [low] below all three thresholds
    has base triple 60, 30, 10 and, with an improving trend, 50, 35, 15
    (10 points off easy, 5 each to medium and hard).  The trend step then
    adds its own 5 points: 35, 40, 25 and 45, 35, 20. *)
Theorem band_step_trend_shift (high low : float) :
  (80 <=? high)%float = true ->
  (80 <=? low)%float = false ->
  (60 <=? low)%float = false ->
  (40 <=? low)%float = false ->
  (bandPercentages high Stable = (20, 40, 40) /\
   bandPercentages high Improving = (20, 40, 40) /\
   bandPercentages high Declining = (30, 40, 30) /\
   trendAdjust Declining (bandPercentages high Declining) = (35, 40, 25))
  /\
  (bandPercentages low Stable = (60, 30, 10) /\
   bandPercentages low Declining = (60, 30, 10) /\
   bandPercentages low Improving = (50, 35, 15) /\
   trendAdjust Improving (bandPercentages low Improving) = (45, 35, 20)).
Proof.
  intros H80 L80 L60 L40. unfold bandPercentages.
  rewrite H80, L80, L60, L40. simpl. repeat split; reflexivity.
Qed.

(** C6, amended, at the scores 85 and 30. *)
Lemma band_step_trend_shift_witness :
  bandPercentages 85 Declining = (30, 40, 30) /\
  bandPercentages 30 Improving = (50, 35, 15).
Proof.
  destruct (band_step_trend_shift 85 30) as [(_ & _ & Hd & _) (_ & _ & Hi & _)];
    try (vm_compute; reflexivity).
  exact (conj Hd Hi).
Defined.

(** Multiples of five up to 5000 split exactly 40/40/20 (by evaluation
    of the double arithmetic). *)
Lemma balanced_exact_1000 :
  forallb (fun k =>
             let d := getBalancedDistribution (5 * k) in
             (easy d =? 2 * k) && (medium d =? 2 * k) && (hard d =? k))
          (Zseq 1 1000) = true.
Proof. vm_compute. reflexivity. Qed.

(** C7.  Without submission history (an empty result, or a null) the
    estimator returns the balanced split: easy is 40% of the total
    rounded up, hard is 20% rounded down, and medium takes what is left;
    on multiples of five (to 5000) that is 40%, 40%, 20% exactly, and for
    ten questions it is 4, 4, 2. *)
Theorem no_history_balanced_split :
  (forall T,
     calculateAdaptiveDifficulty (Ok (Some [])) T
       = Ok (getBalancedDistribution T) /\
     calculateAdaptiveDifficulty (Ok None) T
       = Ok (getBalancedDistribution T) /\
     easy (getBalancedDistribution T) = Math_ceil (of_Z T * 0.4)%float /\
     hard (getBalancedDistribution T) = Math_floor (of_Z T * 0.2)%float /\
     medium (getBalancedDistribution T)
       = T - easy (getBalancedDistribution T)
           - hard (getBalancedDistribution T)) /\
  (forall k, 1 <= k <= 1000 ->
     getBalancedDistribution (5 * k)
       = {| easy := 2 * k; medium := 2 * k; hard := k;
            reasoning := NewUser |}) /\
  calculateAdaptiveDifficulty (Ok (Some [])) 10
    = Ok {| easy := 4; medium := 4; hard := 2; reasoning := NewUser |}.
Proof.
  split; [|split].
  - intros T. repeat split; reflexivity.
  - intros k Hk.
    assert (Hrange : 1 <= k < 1 + Z.of_nat 1000) by lia.
    pose proof (forallb_Zseq _ _ _ balanced_exact_1000 k Hrange) as H.
    cbv beta zeta in H.
    apply andb_prop in H as [H Hh]. apply andb_prop in H as [He Hm].
    apply Z.eqb_eq in He, Hm, Hh.
    destruct (getBalancedDistribution (5 * k)) as [e m h r] eqn:Hd.
    simpl in *. subst e m h.
    assert (r = NewUser) as ->; [|reflexivity].
    unfold getBalancedDistribution in Hd. now injection Hd.
  - vm_compute. reflexivity.
Qed.

(** C9.  [calculateAdaptiveDifficulty] never throws: whatever the
    outcome of the history lookup and whatever the total, it returns a
    distribution; when the lookup fails, that distribution is the
    balanced fallback (4, 4, 2 for ten questions), and nothing of the
    failure is left in the result. *)
Theorem estimator_never_throws :
  (forall pastSubmissions T,
     exists d, calculateAdaptiveDifficulty pastSubmissions T = Ok d) /\
  (forall e T,
     calculateAdaptiveDifficulty (Throw e) T
       = Ok (getBalancedDistribution T)) /\
  calculateAdaptiveDifficulty (Throw PersistenceError) 10
    = Ok {| easy := 4; medium := 4; hard := 2; reasoning := NewUser |}.
Proof.
  split; [|split].
  - intros pastSubmissions T.
    destruct (calculateAdaptiveDifficulty_cases pastSubmissions T)
      as [H | (submissions & _ & _ & H)]; rewrite H; eauto.
  - reflexivity.
  - vm_compute. reflexivity.
Qed.

(* ================================================================== *)
(** * Properties of the question parser                                 *)
(* ================================================================== *)

Lemma jsstring_eqb_eq (a b : jsstring) : jsstring_eqb a b = true <-> a = b.
Proof.
  revert b; induction a as [|x a IH]; intros [|y b]; simpl;
    try (split; [discriminate | congruence]); [tauto|].
  unfold char_eqb. rewrite andb_true_iff, N.eqb_eq, IH.
  split; [intros [-> ->]; reflexivity | intros H; injection H; auto].
Qed.

Lemma In_firstn {A} (n : nat) : forall (l : list A) x,
  In x (firstn n l) -> In x l.
Proof.
  induction n as [|n IH]; intros [|a l] x; simpl; try tauto.
  intros [-> | H]; auto.
Qed.

Lemma drop_while_app_stop (p : char -> bool) (l : jsstring) x t :
  p x = false ->
  drop_while p (l ++ x :: t) = drop_while p l ++ x :: t.
Proof.
  intros Hx. induction l as [|c l IH]; simpl.
  - now rewrite Hx.
  - destruct (p c); [exact IH | reflexivity].
Qed.

(** A letter A to D, in either case, is no white space; neither is the
    closing parenthesis. *)
Lemma AD_ci_cases (c : char) :
  is_AD_ci c = true ->
  (c = 65 \/ c = 66 \/ c = 67 \/ c = 68 \/
   c = 97 \/ c = 98 \/ c = 99 \/ c = 100)%N.
Proof.
  unfold is_AD_ci, is_upper_AD.
  rewrite orb_true_iff, !andb_true_iff, !N.leb_le. lia.
Qed.

Lemma AD_ci_not_space (c : char) : is_AD_ci c = true -> is_space c = false.
Proof.
  intros H. apply AD_ci_cases in H.
  repeat (destruct H as [-> | H]; [reflexivity|]). now subst.
Qed.

Lemma toUpperCase_AD (c : char) :
  is_AD_ci c = true -> bare_letter [toUpperCase c].
Proof.
  intros H. apply AD_ci_cases in H. unfold bare_letter.
  destruct H as [-> | [-> | [-> | [-> | [-> | [-> | [-> | ->]]]]]]];
    vm_compute; tauto.
Qed.

(** Trimming keeps a marker at the head of a string. *)
Lemma trim_keeps_marker (opt : jsstring) :
  has_marker opt -> has_marker (trim opt).
Proof.
  intros (letter & text & -> & Hletter).
  pose proof (AD_ci_not_space _ Hletter) as Hns.
  unfold trim. simpl drop_while at 2. rewrite Hns.
  change (rev (letter :: 41%N :: text))
    with ((rev text ++ [41%N]) ++ [letter]).
  rewrite <- app_assoc. simpl app at 2.
  rewrite drop_while_app_stop by reflexivity.
  rewrite rev_app_distr. simpl.
  exists letter, (rev (drop_while is_space (rev text))). auto.
Qed.

(** Every match of the option pattern starts with a marker. *)
Lemma match_options_marker (s : jsstring) : forall skip m,
  In m (match_options skip s) -> has_marker m.
Proof.
  induction s as [|c s IH]; intros skip m Hin; [contradiction|].
  cbn [match_options] in Hin.
  destruct skip as [|k]; [|eapply IH; eauto].
  destruct (match_option (c :: s)) as [[|n]|] eqn:Hm;
    try (eapply IH; solve [eauto]).
  destruct Hin as [<- | Hin]; [|eapply IH; eauto].
  unfold match_option in Hm.
  destruct s as [|c2 s2]; [discriminate|].
  destruct (is_AD_ci c && (c2 =? 41)%N) eqn:Hc; [|discriminate].
  apply andb_prop in Hc as [Hc Hc2]. apply N.eqb_eq in Hc2. subst c2.
  injection Hm as Hn. subst n. simpl.
  eexists _, _. split; [reflexivity | exact Hc].
Qed.

(** Every match of the option pattern runs to the end of its line. *)
Lemma take_drop_while (p : char -> bool) (s : jsstring) :
  s = take_while p s ++ drop_while p s.
Proof.
  induction s as [|c s IH]; simpl; [reflexivity|].
  destruct (p c); simpl; congruence.
Qed.

Lemma drop_while_head (p : char -> bool) (s : jsstring) :
  match drop_while p s with
  | [] => True
  | c :: _ => p c = false
  end.
Proof.
  induction s as [|c s IH]; simpl; [exact I|].
  destruct (p c) eqn:Hc; [exact IH | exact Hc].
Qed.

Lemma firstn_skipn_length_app {A} (a b : list A) :
  firstn (length a) (a ++ b) = a /\ skipn (length a) (a ++ b) = b.
Proof.
  induction a as [|x a [IH1 IH2]]; simpl; [auto|].
  rewrite IH1. auto.
Qed.

Lemma match_option_line (s : jsstring) (n : nat) :
  match_option s = Some n ->
  match skipn n s with
  | [] => True
  | c :: _ => not_newline c = false
  end.
Proof.
  unfold match_option. destruct s as [|c [|c2 s2]]; try discriminate.
  destruct (is_AD_ci c && (c2 =? 41)%N); [|discriminate].
  intros H. injection H as <-.
  set (ws := take_while is_space s2).
  set (line := take_while not_newline (drop_while is_space s2)).
  set (rest := drop_while not_newline (drop_while is_space s2)).
  assert (Hs2 : c :: c2 :: s2 = (c :: c2 :: ws ++ line) ++ rest).
  { simpl. rewrite <- app_assoc. unfold ws, line, rest.
    now rewrite <- !take_drop_while. }
  rewrite Hs2.
  replace (S (S (length ws + length line)))
    with (length (c :: c2 :: ws ++ line))
    by (simpl; now rewrite length_app).
  rewrite (proj2 (firstn_skipn_length_app _ rest)).
  apply drop_while_head.
Qed.

Lemma match_options_line (s : jsstring) : forall skip m,
  In m (match_options skip s) -> to_end_of_line m s.
Proof.
  induction s as [|c s IH]; intros skip m Hin; [contradiction|].
  cbn [match_options] in Hin.
  assert (Hrest : forall k, In m (match_options k s) ->
                            to_end_of_line m (c :: s)).
  { intros k Hk. apply IH in Hk as (before & after & -> & Hafter).
    exists (c :: before), after. auto. }
  destruct skip as [|k]; [|eauto].
  destruct (match_option (c :: s)) as [[|n]|] eqn:Hm; eauto.
  destruct Hin as [<- | Hin]; [|eauto].
  exists [], (skipn (S n) (c :: s)). split.
  - simpl app. now rewrite firstn_skipn.
  - exact (match_option_line _ _ Hm).
Qed.

(** The captured answer letter is a letter A to D, in either case. *)
Lemma find_answer_AD (keyword s : jsstring) c :
  find_answer keyword s = Some c -> is_AD_ci c = true.
Proof.
  induction s as [|x s IH]; simpl; intros H.
  - destruct (answer_at keyword []) eqn:Ha; [|discriminate].
    injection H as ->. unfold answer_at in Ha.
    destruct (strip_prefix_ci keyword []) as [rest|]; [|discriminate].
    destruct (drop_while is_space rest) as [|y ?]; [discriminate|].
    destruct (is_AD_ci y) eqn:Hy; [|discriminate]. now injection Ha as <-.
  - destruct (answer_at keyword (x :: s)) eqn:Ha; [|auto].
    injection H as ->. unfold answer_at in Ha.
    destruct (strip_prefix_ci keyword (x :: s)) as [rest|]; [|discriminate].
    destruct (drop_while is_space rest) as [|y ?]; [discriminate|].
    destruct (is_AD_ci y) eqn:Hy; [|discriminate]. now injection Ha as <-.
Qed.

(** What a successful [parseQuestionBlock] returns. *)
Lemma parseQuestionBlock_Ok (block : jsstring) (n : nat) (q : Parsed.t) :
  parseQuestionBlock block n = Ok q ->
  exists group1,
    question_prefix block = Some group1 /\
    Parsed.question q = trim (strip_marker group1) /\
    Parsed.question q <> [] /\
    (4 <= length (match_options 0 block))%nat /\
    Parsed.options q = map trim (firstn 4 (match_options 0 block)) /\
    Parsed.questionId q = js "q" ++ decimal n /\
    bare_letter (Parsed.answer q).
Proof.
  unfold parseQuestionBlock.
  destruct (question_prefix block) as [group1|]; [|discriminate].
  destruct (is_empty (trim (strip_marker group1))) eqn:Hq; [discriminate|].
  destruct (length (match_options 0 block) <? 4)%nat eqn:Hn; [discriminate|].
  remember (find_answer (js "Answer:") block) as a1 eqn:Ha1.
  remember (find_answer (js "Correct:") block) as a2 eqn:Ha2.
  remember (js "q" ++ decimal n) as qid eqn:Hqid.
  intros H. injection H as <-.
  cbn [Parsed.question Parsed.options Parsed.questionId Parsed.answer].
  exists group1. repeat split; auto.
  - intros Heq. rewrite Heq in Hq. discriminate.
  - apply Nat.ltb_ge in Hn. exact Hn.
  - destruct a1 as [c|].
    + apply toUpperCase_AD. eapply find_answer_AD; eauto.
    + destruct a2 as [c|].
      * apply toUpperCase_AD. eapply find_answer_AD; eauto.
      * left. reflexivity.
Qed.

(** When a block is accepted does not depend on its number. *)
Lemma parseQuestionBlock_accepts (block : jsstring) (n : nat) :
  (exists q, parseQuestionBlock block n = Ok q) <->
  (exists group1,
     question_prefix block = Some group1 /\
     trim (strip_marker group1) <> [] /\
     (4 <= length (match_options 0 block))%nat).
Proof.
  split.
  - intros (q & Hq). apply parseQuestionBlock_Ok in Hq
      as (g & Hg & Hqq & Hne & Hlen & _).
    exists g. rewrite <- Hqq. auto.
  - intros (g & Hg & Hne & Hlen). unfold parseQuestionBlock. rewrite Hg.
    destruct (trim (strip_marker g)) as [|c t] eqn:Ht; [congruence|].
    simpl is_empty. cbv iota.
    apply Nat.ltb_ge in Hlen. rewrite Hlen. eauto.
Qed.

Lemma options_length_4 (block : jsstring) (n : nat) (q : Parsed.t) :
  parseQuestionBlock block n = Ok q -> length (Parsed.options q) = 4%nat.
Proof.
  intros H. apply parseQuestionBlock_Ok in H
    as (g & _ & _ & _ & Hlen & Hopts & _).
  rewrite Hopts, length_map, length_firstn. lia.
Qed.

Lemma options_have_markers (block : jsstring) (n : nat) (q : Parsed.t) :
  parseQuestionBlock block n = Ok q -> Forall has_marker (Parsed.options q).
Proof.
  intros H. apply parseQuestionBlock_Ok in H
    as (g & _ & _ & _ & _ & Hopts & _).
  rewrite Hopts. apply Forall_forall. intros opt Hin.
  apply in_map_iff in Hin as (m & <- & Hm).
  apply trim_keeps_marker. apply In_firstn in Hm.
  eapply match_options_marker; eauto.
Qed.

Lemma options_are_lines (block : jsstring) (n : nat) (q : Parsed.t) :
  parseQuestionBlock block n = Ok q ->
  Forall (option_line block) (Parsed.options q).
Proof.
  intros H. apply parseQuestionBlock_Ok in H
    as (g & _ & _ & _ & _ & Hopts & _).
  rewrite Hopts. apply Forall_forall. intros opt Hin.
  apply in_map_iff in Hin as (m & <- & Hm).
  apply In_firstn in Hm. exists m. split; [reflexivity|]. split.
  - eapply match_options_marker; eauto.
  - eapply match_options_line; eauto.
Qed.

(** A bare letter is one character long, a string with a marker at least
    two: they are never equal. *)
Lemma bare_letter_no_marker (s : jsstring) :
  bare_letter s -> has_marker s -> False.
Proof.
  intros Hb (letter & text & -> & _).
  destruct Hb as [H | [H | [H | H]]]; discriminate.
Qed.

(** The check after [parseQuestionBlock] in the loop never rejects what
    [parseQuestionBlock] returned. *)
Lemma loop_check_passes (block : jsstring) (n : nat) (q : Parsed.t) :
  parseQuestionBlock block n = Ok q ->
  negb (is_empty (Parsed.question q))
  && (length (Parsed.options q) =? 4)%nat = true.
Proof.
  intros H. rewrite (options_length_4 _ _ _ H).
  apply parseQuestionBlock_Ok in H as (_ & _ & _ & Hne & _).
  destruct (Parsed.question q); [congruence | reflexivity].
Qed.

Lemma accepted_iff (b : jsstring) (n : nat) :
  accepted b = true <-> exists q, parseQuestionBlock (trim b) n = Ok q.
Proof.
  unfold accepted. rewrite (parseQuestionBlock_accepts (trim b) n).
  rewrite <- (parseQuestionBlock_accepts (trim b) 0).
  destruct (parseQuestionBlock (trim b) 0) as [q|e].
  - split; eauto.
  - split; [discriminate | intros (q & Hq); discriminate].
Qed.

(** The loop keeps exactly the accepted blocks among those it visits. *)
Lemma parse_blocks_length (blocks : list jsstring) : forall i,
  length (parse_blocks i blocks) = length (filter accepted blocks).
Proof.
  induction blocks as [|b rest IH]; intros i; [reflexivity|].
  cbn [parse_blocks filter].
  destruct (parseQuestionBlock (trim b) (i + 1)) as [q|e] eqn:Hp.
  - assert (Hacc : accepted b = true)
      by (apply (accepted_iff b (i + 1)); eauto).
    rewrite Hacc, (loop_check_passes _ _ _ Hp).
    destruct (is_empty (trim b)) eqn:Hb.
    + destruct (trim b); [|discriminate]. discriminate.
    + simpl. now rewrite IH.
  - assert (Hacc : accepted b = false).
    { destruct (accepted b) eqn:Ha; [|reflexivity].
      apply (accepted_iff b (i + 1)) in Ha as (q & Hq). congruence. }
    rewrite Hacc. destruct (is_empty (trim b)); apply IH.
Qed.

Lemma parse_blocks_In (blocks : list jsstring) : forall i q,
  In q (parse_blocks i blocks) ->
  exists b n, In b blocks /\ parseQuestionBlock (trim b) n = Ok q.
Proof.
  induction blocks as [|b rest IH]; intros i q Hin; [contradiction|].
  cbn [parse_blocks] in Hin.
  assert (Hrest : In q (parse_blocks (S i) rest) ->
                  exists b0 n, In b0 (b :: rest)
                               /\ parseQuestionBlock (trim b0) n = Ok q).
  { intros H. apply IH in H as (b0 & n & Hb0 & Hq).
    exists b0, n. split; [now right | exact Hq]. }
  destruct (is_empty (trim b)); [auto|].
  destruct (parseQuestionBlock (trim b) (i + 1)) as [q0|e] eqn:Hp; [|auto].
  destruct (negb (is_empty (Parsed.question q0))
            && (length (Parsed.options q0) =? 4)%nat); [|auto].
  destruct Hin as [<- | Hin]; [|auto].
  exists b, (i + 1)%nat. split; [now left | exact Hp].
Qed.

Lemma parsed_from_block (text : jsstring) (expectedCount : Z) (q : Parsed.t) :
  In q (parseQuestionsFromText text expectedCount) ->
  exists b n, In b (questionBlocks text) /\
              parseQuestionBlock (trim b) n = Ok q.
Proof.
  unfold parseQuestionsFromText. intros H.
  apply parse_blocks_In in H as (b & n & Hb & Hq).
  apply In_firstn in Hb. eauto.
Qed.

Lemma length_filter_le {A} (f : A -> bool) (l : list A) :
  (length (filter f l) <= length l)%nat.
Proof.
  induction l as [|a l IH]; simpl; [lia|].
  destruct (f a); simpl; lia.
Qed.

Lemma filter_all {A} (f : A -> bool) (l : list A) :
  Forall (fun a => f a = true) l -> filter f l = l.
Proof.
  induction 1 as [|a l Ha _ IH]; simpl; [reflexivity|].
  now rewrite Ha, IH.
Qed.

(** C2, as stated, fails.  In a text of five blocks whose second block
    lacks the fourth option (the other four are well-formed: with
    expectedCount = 5 all four are returned), expectedCount = 3 yields two
    items, q1 and q3: the dropped block has used up one of the three
    iterations. *)
Lemma short_block_counts_toward_three :
  map accepted (questionBlocks fiveBlocksOneShort)
    = [true; false; true; true; true] /\
  length (parseQuestionsFromText fiveBlocksOneShort 5) = 4%nat /\
  map Parsed.questionId (parseQuestionsFromText fiveBlocksOneShort 3)
    = [js "q1"; js "q3"] /\
  length (parseQuestionsFromText fiveBlocksOneShort 3) <> 3%nat.
Proof.
  split; [vm_compute; reflexivity|].
  split; [vm_compute; reflexivity|].
  split; [vm_compute; reflexivity|].
  vm_compute. discriminate.
Qed.

(** C2, amended.  The parser visits the first min(number of blocks,
    expectedCount) non-blank blocks only, and returns those of them that
    it accepts: the result is never longer than expectedCount, and a
    dropped block among the visited ones is not replaced by a later one.
    A block is accepted exactly when its prompt text (the text up to a
    first "A)" that no capital A to D precedes) is not blank and the
    option pattern matches at least four times in it; the first four
    matches are kept, so every returned item has a non-empty prompt and
    exactly four options.  With expectedCount = 3, five well-formed
    blocks yield exactly the first three (as do any three accepted
    blocks at the head of a text); with the second block lacking its
    fourth option they yield two. *)
Theorem parser_visits_first_blocks :
  (forall text expectedCount,
     let blocks := questionBlocks text in
     let visited :=
       firstn (Z.to_nat (Z.min (Z.of_nat (length blocks)) expectedCount))
              blocks in
     length (parseQuestionsFromText text expectedCount)
       = length (filter accepted visited) /\
     (length (parseQuestionsFromText text expectedCount)
        <= Z.to_nat expectedCount)%nat) /\
  (forall block n,
     (exists q, parseQuestionBlock block n = Ok q) <->
     (exists group1,
        question_prefix block = Some group1 /\
        trim (strip_marker group1) <> [] /\
        (4 <= length (match_options 0 block))%nat)) /\
  (forall text expectedCount q,
     In q (parseQuestionsFromText text expectedCount) ->
     Parsed.question q <> [] /\ length (Parsed.options q) = 4%nat) /\
  (forall text,
     (3 <= length (questionBlocks text))%nat ->
     Forall (fun b => accepted b = true) (firstn 3 (questionBlocks text)) ->
     length (parseQuestionsFromText text 3) = 3%nat) /\
  (map accepted (questionBlocks fiveBlocks)
     = [true; true; true; true; true] /\
   map Parsed.questionId (parseQuestionsFromText fiveBlocks 3)
     = [js "q1"; js "q2"; js "q3"]) /\
  (map accepted (questionBlocks fiveBlocksOneShort)
     = [true; false; true; true; true] /\
   map Parsed.questionId (parseQuestionsFromText fiveBlocksOneShort 3)
     = [js "q1"; js "q3"]).
Proof.
  split; [|split; [|split; [|split; [|split]]]].
  - intros text expectedCount blocks visited.
    unfold parseQuestionsFromText. fold blocks. fold visited.
    rewrite parse_blocks_length. split; [reflexivity|].
    pose proof (length_filter_le accepted visited) as H1.
    assert (H2 : (length visited <= Z.to_nat expectedCount)%nat).
    { unfold visited. rewrite length_firstn. lia. }
    lia.
  - exact parseQuestionBlock_accepts.
  - intros text expectedCount q Hin.
    apply parsed_from_block in Hin as (b & n & _ & Hq).
    split; [|eapply options_length_4; eauto].
    apply parseQuestionBlock_Ok in Hq as (_ & _ & _ & Hne & _). exact Hne.
  - intros text Hlen Hall. unfold parseQuestionsFromText.
    rewrite parse_blocks_length.
    replace (Z.to_nat (Z.min (Z.of_nat (length (questionBlocks text))) 3))
      with 3%nat by lia.
    rewrite (filter_all _ _ Hall), length_firstn. lia.
  - split; vm_compute; reflexivity.
  - split; vm_compute; reflexivity.
Qed.

(* ================================================================== *)
(** * Properties of the provider fallback chain                         *)
(* ================================================================== *)

Section Gateway.

Variable env : Providers.
Variable totalQuestions : Z.

Lemma openRouter_exhausted :
  exhausted (OPENROUTER_API_KEY env) (openRouter env) totalQuestions ->
  usable (tryOpenRouterGeneration env totalQuestions) = false.
Proof.
  unfold tryOpenRouterGeneration.
  intros [-> | [-> | (text & -> & ->)]]; [reflexivity | |];
    destruct (OPENROUTER_API_KEY env); reflexivity.
Qed.

Lemma groq_exhausted :
  exhausted (GROQ_API_KEY env) (groq env) totalQuestions ->
  usable (tryGroqGeneration env totalQuestions) = false.
Proof.
  unfold tryGroqGeneration.
  intros [-> | [-> | (text & -> & ->)]]; [reflexivity | |];
    destruct (GROQ_API_KEY env); reflexivity.
Qed.

Lemma tryModels_exhausted (models : list string) :
  (forall model, In model models ->
     exhausted true (textGeneration env model) totalQuestions) ->
  tryModels env totalQuestions models = None.
Proof.
  induction models as [|model rest IH]; intros H; [reflexivity|].
  simpl. destruct (H model (or_introl eq_refl))
    as [Hk | [-> | (text & -> & ->)]]; [discriminate | |];
    apply IH; intros m Hm; apply H; now right.
Qed.

Lemma huggingFace_exhausted :
  (forall model, In model workingModels ->
     exhausted (HUGGINGFACE_API_KEY env) (textGeneration env model)
               totalQuestions) ->
  usable (tryHuggingFaceGeneration env totalQuestions) = false.
Proof.
  unfold tryHuggingFaceGeneration. intros H.
  destruct (HUGGINGFACE_API_KEY env); [|reflexivity].
  cbn [negb]. now rewrite (tryModels_exhausted _ H).
Qed.

(** What [tryModels] returns was parsed from the text of one model. *)
Lemma tryModels_Some (models : list string) (questions : list Parsed.t) :
  tryModels env totalQuestions models = Some questions ->
  questions <> [] /\
  exists model text,
    In model models /\ textGeneration env model = Completes text /\
    questions = parseQuestionsFromText text totalQuestions.
Proof.
  induction models as [|model rest IH]; [discriminate|]. simpl.
  destruct (textGeneration env model) as [|text] eqn:Hc.
  - intros H. apply IH in H as (Hne & m & t & Hm & Ht & Hq).
    split; [exact Hne|]. exists m, t. auto.
  - destruct (parseQuestionsFromText text totalQuestions) as [|q qs] eqn:Hp.
    + intros H. apply IH in H as (Hne & m & t & Hm & Ht & Hq).
      split; [exact Hne|]. exists m, t. auto.
    + intros H. injection H as <-. split; [discriminate|].
      exists model, text. auto.
Qed.

(** No fabricated content: a result of [generateQuestions] is not empty
    and is what the parser read in the text one provider completed. *)
Lemma generateQuestions_Ok (questions : list Parsed.t) :
  generateQuestions env totalQuestions = Ok questions ->
  questions <> [] /\
  exists text,
    questions = parseQuestionsFromText text totalQuestions /\
    (openRouter env = Completes text \/ groq env = Completes text \/
     exists model, In model workingModels /\
                   textGeneration env model = Completes text).
Proof.
  unfold generateQuestions.
  destruct (tryOpenRouterGeneration env totalQuestions) as [[|q qs]|] eqn:H1;
    simpl.
  2:{ intros H. injection H as <-. split; [discriminate|].
      unfold tryOpenRouterGeneration in H1.
      destruct (OPENROUTER_API_KEY env); [|discriminate].
      destruct (openRouter env) as [|text]; [discriminate|].
      injection H1 as H1. exists text. auto. }
  all: destruct (tryGroqGeneration env totalQuestions) as [[|q qs]|] eqn:H2;
    simpl.
  2,5:
    intros H; injection H as <-; (split; [discriminate|]);
    unfold tryGroqGeneration in H2;
    destruct (GROQ_API_KEY env); [|discriminate];
    destruct (groq env) as [|text]; [discriminate|];
    injection H2 as H2; exists text; auto.
  all: destruct (tryHuggingFaceGeneration env totalQuestions)
         as [[|q qs]|] eqn:H3; simpl; try discriminate.
  all: intros H; injection H as <-;
    unfold tryHuggingFaceGeneration in H3;
    destruct (HUGGINGFACE_API_KEY env); [|discriminate];
    apply tryModels_Some in H3 as (Hne & model & text & Hm & Ht & Hq);
    (split; [exact Hne|]); exists text; split; [exact Hq|];
    right; right; exists model; auto.
Qed.

End Gateway.

Lemma trySuggestionModels_exhausted (fetch : string -> FetchOutcome)
    (models : list string) :
  (forall model, In model models -> no_suggestions (fetch model)) ->
  trySuggestionModels fetch models = Throw AllAIModelsFailed.
Proof.
  induction models as [|model rest IH]; intros H; [reflexivity|].
  simpl. pose proof (H model (or_introl eq_refl)) as Hm.
  assert (Hrest : trySuggestionModels fetch rest = Throw AllAIModelsFailed)
    by (apply IH; intros m Hin; apply H; now right).
  destruct (fetch model) as [| | |content]; auto.
  simpl in Hm. apply Nat.eqb_neq in Hm. now rewrite Hm.
Qed.

(** Suggestions, when returned, are three lines read in the content one
    model sent. *)
Lemma trySuggestionModels_Ok (fetch : string -> FetchOutcome)
    (models : list string) (suggestions : list jsstring) :
  trySuggestionModels fetch models = Ok suggestions ->
  length suggestions = 3%nat /\
  exists model content,
    In model models /\ fetch model = Content content /\
    suggestions = parseSuggestions content.
Proof.
  induction models as [|model rest IH]; [discriminate|]. simpl.
  assert (Hrest : trySuggestionModels fetch rest = Ok suggestions ->
                  length suggestions = 3%nat /\
                  exists m content, (model = m \/ In m rest) /\
                    fetch m = Content content /\
                    suggestions = parseSuggestions content).
  { intros H. apply IH in H as (Hl & m & c & Hm & Hc & Hs).
    split; [exact Hl|]. exists m, c. auto. }
  destruct (fetch model) as [| | |content] eqn:Hf; auto.
  destruct (length (parseSuggestions content) =? 3)%nat eqn:Hl; auto.
  intros H. injection H as <-. apply Nat.eqb_eq in Hl.
  split; [exact Hl|]. exists model, content. auto.
Qed.

(** C4.  When every provider of the question chain is exhausted (its
    credential is absent, its request fails, or the parser finds no
    question in its text) [generateQuestions] throws the "all AI services
    failed" error; when every suggestion model is exhausted
    [generateAISuggestions] throws the "all AI models failed" error.  A
    thrown result carries no content. *)
Theorem all_providers_exhausted (env : Providers) (totalQuestions : Z)
    (fetch : string -> FetchOutcome) :
  exhausted (OPENROUTER_API_KEY env) (openRouter env) totalQuestions ->
  exhausted (GROQ_API_KEY env) (groq env) totalQuestions ->
  (forall model, In model workingModels ->
     exhausted (HUGGINGFACE_API_KEY env) (textGeneration env model)
               totalQuestions) ->
  (forall model, In model freeModels -> no_suggestions (fetch model)) ->
  generateQuestions env totalQuestions = Throw AllAIServicesFailed /\
  generateAISuggestions fetch = Throw AllAIModelsFailed.
Proof.
  intros H1 H2 H3 H4. split.
  - unfold generateQuestions.
    rewrite (openRouter_exhausted _ _ H1), (groq_exhausted _ _ H2),
      (huggingFace_exhausted _ _ H3). reflexivity.
  - apply trySuggestionModels_exhausted, H4.
Qed.

(** C4 at these providers. *)
Lemma all_providers_exhausted_witness :
  generateQuestions exhaustedProviders 3 = Throw AllAIServicesFailed /\
  generateAISuggestions exhaustedFetch = Throw AllAIModelsFailed.
Proof.
  apply (all_providers_exhausted exhaustedProviders 3 exhaustedFetch).
  - left. reflexivity.
  - right. left. reflexivity.
  - intros model _. right. right.
    exists (js "I cannot help with that."). split; reflexivity.
  - intros model Hin. simpl in Hin.
    repeat (destruct Hin as [<- | Hin];
            [vm_compute; try discriminate; exact I|]).
    contradiction.
Defined.

(* ================================================================== *)
(** * Properties of the routes                                          *)
(* ================================================================== *)




Lemma transformQuestions_In (validDifficulty : Difficulty)
    (generated : list Parsed.t) : forall index question,
  In question (transformQuestions validDifficulty index generated) ->
  exists q, In q generated /\
            QuizQuestion.correctAnswer question = Parsed.answer q /\
            QuizQuestion.options question = Parsed.options q.
Proof.
  induction generated as [|q rest IH]; intros index question Hin;
    [contradiction|].
  cbn [transformQuestions] in Hin. destruct Hin as [<- | Hin].
  - exists q. simpl. auto.
  - apply IH in Hin as (q' & Hq' & Ha & Ho). exists q'. simpl. auto.
Qed.

(** The questions of a stored quiz are the transformed questions that
    the parser read in one provider's text. *)
Lemma create_quiz_questions user subject difficulty totalQuestions env
    quizId quiz :
  create_quiz user subject difficulty totalQuestions env quizId
    = Stores quiz ->
  exists validDifficulty text,
    Quiz.questions quiz
    = transformQuestions validDifficulty 0
        (parseQuestionsFromText text totalQuestions).
Proof.
  unfold create_quiz. destruct user as [u|]; [|discriminate].
  destruct (is_empty (user_userId u)); [discriminate|].
  destruct difficulty as [validDifficulty|]; [|discriminate].
  destruct (generateQuestions env totalQuestions) as [generated|e] eqn:Hg;
    [|discriminate].
  apply generateQuestions_Ok in Hg as (_ & text & -> & _).
  destruct (parseQuestionsFromText text totalQuestions) as [|q qs] eqn:Hp;
    [discriminate|].
  intros H. injection H as <-. cbn [Quiz.questions].
  exists validDifficulty, text. rewrite Hp. reflexivity.
Qed.

Lemma parsed_answer_properties (text : jsstring) (expectedCount : Z)
    (q : Parsed.t) :
  In q (parseQuestionsFromText text expectedCount) ->
  bare_letter (Parsed.answer q) /\
  length (Parsed.options q) = 4%nat /\
  Forall has_marker (Parsed.options q) /\
  (exists b, In b (questionBlocks text) /\
             Forall (option_line (trim b)) (Parsed.options q)) /\
  ~ In (Parsed.answer q) (Parsed.options q).
Proof.
  intros Hin. apply parsed_from_block in Hin as (b & n & Hb & Hq).
  pose proof (options_have_markers _ _ _ Hq) as Hmark.
  pose proof (options_are_lines _ _ _ Hq) as Hlines.
  pose proof (options_length_4 _ _ _ Hq) as Hlen.
  apply parseQuestionBlock_Ok in Hq as (_ & _ & _ & _ & _ & _ & _ & Hbare).
  repeat split; eauto.
  intros Hin. rewrite Forall_forall in Hmark.
  exact (bare_letter_no_marker _ Hbare (Hmark _ Hin)).
Qed.

(** C10.  Every question the parser produces has for answer a single
    bare letter A, B, C or D and four options that each still carry their
    marker (a letter A to D and a closing parenthesis) and are the text of
    the block from that marker to the end of its line, so the answer is
    none of the options.  The same holds of
    correctAnswer and options on every question of a quiz stored by
    create-quiz, and on such a quiz submit-ejs marks a response correct
    only if the user response is the bare letter.  On the first sample
    block the options are the four full lines and the answer is "B";
    answering with the full text of the right option is marked wrong. *)
Theorem answer_letter_is_no_option :
  (forall text expectedCount q,
     In q (parseQuestionsFromText text expectedCount) ->
     bare_letter (Parsed.answer q) /\
     length (Parsed.options q) = 4%nat /\
     Forall has_marker (Parsed.options q) /\
     (exists b, In b (questionBlocks text) /\
                Forall (option_line (trim b)) (Parsed.options q)) /\
     ~ In (Parsed.answer q) (Parsed.options q)) /\
  (forall user subject difficulty totalQuestions env quizId quiz,
     create_quiz user subject difficulty totalQuestions env quizId
       = Stores quiz ->
     Forall (fun question =>
               bare_letter (QuizQuestion.correctAnswer question) /\
               Forall has_marker (QuizQuestion.options question) /\
               ~ In (QuizQuestion.correctAnswer question)
                    (QuizQuestion.options question))
            (Quiz.questions quiz) /\
     forall quizId' user' responses fetch s,
       submit_ejs quizId' user' responses (Some quiz) fetch = Stores s ->
       Forall (fun r =>
                 Response.truthy r = true ->
                 bare_letter (Response.userResponse r) /\
                 Response.userResponse r = Response.correctAnswer r)
              (Submission.responses s)) /\
  (map (fun q => (Parsed.options q, Parsed.answer q))
       (parseQuestionsFromText block1 1)
   = [([js "A) Plant respiration process";
        js "B) Process of making food using sunlight";
        js "C) Root absorption method";
        js "D) Leaf growth mechanism"], js "B")] /\
   create_quiz (Some sampleUser) (js "Science") (Some EASY) 3
               answeringProviders (js "quiz_1") = Stores sampleQuiz /\
   map Response.isCorrect (map (evaluate sampleQuiz) sampleResponses)
   = [Some true; Some false; Some false]).
Proof.
  split; [exact parsed_answer_properties|]. split.
  - intros user subject difficulty totalQuestions env quizId quiz Hquiz.
    apply create_quiz_questions in Hquiz as (validDifficulty & text & Hqs).
    assert (Hall : forall question, In question (Quiz.questions quiz) ->
              bare_letter (QuizQuestion.correctAnswer question) /\
              Forall has_marker (QuizQuestion.options question) /\
              ~ In (QuizQuestion.correctAnswer question)
                   (QuizQuestion.options question)).
    { intros question Hin. rewrite Hqs in Hin.
      apply transformQuestions_In in Hin as (q & Hq & -> & ->).
      apply parsed_answer_properties in Hq as (Hb & _ & Hm & _ & Hn). auto. }
    split; [apply Forall_forall; exact Hall|].
    intros quizId' user' responses fetch s Hs.
    unfold submit_ejs in Hs. injection Hs as <-.
    cbn [Submission.responses]. apply Forall_forall. intros r Hr.
    apply in_map_iff in Hr as ([questionId userResponse] & <- & _).
    unfold Response.truthy, evaluate.
    cbn [Response.isCorrect Response.userResponse Response.correctAnswer].
    destruct (find _ (Quiz.questions quiz)) as [question|] eqn:Hfind;
      [|discriminate].
    apply find_some in Hfind as [Hin _].
    destruct (jsstring_eqb (QuizQuestion.correctAnswer question) userResponse)
      eqn:Heq; [|discriminate].
    apply jsstring_eqb_eq in Heq. subst userResponse.
    intros _. split; [apply (Hall question Hin) | reflexivity].
  - split; [vm_compute; reflexivity|].
    split; vm_compute; reflexivity.
Qed.
